(** * autolysis.py: the per-dataset analysis pipeline

    A shallow embedding of [src/autolysis.py].  The script is a sequence of
    calls into pandas, matplotlib, seaborn and the operating system, glued by
    [try]/[except] blocks, [exit()] and one [for] loop.  The embedding keeps
    exactly that glue: every library call is a primitive of a small
    state-and-exception monad, an environment decides what each call does
    (whether it raises, what it returns), and the Python control flow around
    the calls is written out as it stands in the source. *)

From Stdlib Require Import Ascii String.
From stdpp Require Import gmap strings list pretty.

(** ** Data model *)

(** numpy dtypes a pandas column can carry. *)
Inductive Dtype :=
| int8 | int16 | int32 | int64
| uint8 | uint16 | uint32 | uint64
| float16 | float32 | float64
| bool_ | object_ | datetime64.

Global Instance Dtype_eq_dec : EqDecision Dtype.
Proof. solve_decision. Defined.

(** A column: its label, its dtype and its cells; [None] is a null (NaN). *)
Record Column := mkColumn {
  col_name : string;
  col_dtype : Dtype;
  col_cells : list (option string)
}.

(** A [pandas.DataFrame]: the length of its index and its columns. *)
Record DataFrame := mkFrame {
  df_nrows : nat;
  df_columns : list Column
}.

(** A [pandas.Series] of counts indexed by column label. *)
Definition Series := list (string * nat).

(** [data.shape] *)
Definition df_shape (data : DataFrame) : nat * nat :=
  (df_nrows data, length (df_columns data)).

(** [DataFrame.empty]: true when any axis has length 0. *)
Definition df_empty (data : DataFrame) : bool :=
  (df_nrows data =? 0) || (length (df_columns data) =? 0).

(** [data.select_dtypes(include=...)]: the columns whose dtype is listed,
    over the same index. *)
Definition select_dtypes (data : DataFrame) (include : list Dtype) : DataFrame :=
  mkFrame (df_nrows data)
          (filter (λ c, col_dtype c ∈ include) (df_columns data)).

Definition count_nulls (cells : list (option string)) : nat :=
  length (filter (λ c, c = None) cells).

(** [data.isnull().sum()]: one entry per column, in column order. *)
Definition isnull_sum (data : DataFrame) : Series :=
  map (λ c, (col_name c, count_nulls (col_cells c))) (df_columns data).

(** [str((r, c))], the text an f-string gives for [data.shape]. *)
Definition shape_str (data : DataFrame) : string :=
  "(" +:+ pretty (df_shape data).1 +:+ ", " +:+ pretty (df_shape data).2 +:+ ")".

(** ** Exceptions, calls and events *)

Inductive Encoding := utf_8 | iso_8859_1.

Global Instance Encoding_eq_dec : EqDecision Encoding.
Proof. solve_decision. Defined.

(** Classes of [Exception] the script distinguishes; everything else that
    derives from [Exception] is [OtherException].  [SystemExit], which is not
    an [Exception], is the separate outcome [Exit] below. *)
Inductive ExcClass :=
| UnicodeDecodeError | FileNotFoundError | EmptyDataError
| FileExistsError | OtherException.

Global Instance ExcClass_eq_dec : EqDecision ExcClass.
Proof. solve_decision. Defined.

Record Exc := mkExc { exc_class : ExcClass; exc_msg : string }.

(** The library and system calls the script makes. *)
Inductive Call :=
| OsChdir
| OsMakedirs (path : string)
| PdReadCsv (path : string) (enc : Encoding)
| DfInfo | DfDescribe | DfIsnullSum | DfSelectDtypes | DfCorr | ToString
| SnsSet | PltFigure | SnsHeatmap | PltSavefig (path : string) | PltClose
| SnsPairplot
| OpenW (path : string)
| FWrite (path : string) (text : string).

(** What an observer of the run sees: lines printed, and calls with their
    result ([None]: returned, [Some e]: raised [e]). *)
Inductive Event :=
| EPrint (line : string)
| ECall (c : Call) (r : option Exc).

(** What has been drawn on a matplotlib figure. *)
Inductive Artist :=
| Heatmap (matrix : DataFrame)
| PairGrid (data : DataFrame).

Inductive Content :=
| Image (artists : list Artist)
| Text (s : string).

(** The state a run threads: the events so far (oldest first), the
    directories and files of the file system, and pyplot's global list of
    open figures, the current figure first. *)
Record World := mkWorld {
  w_trace : list Event;
  w_dirs : gset string;
  w_files : gmap string Content;
  w_figs : list (list Artist)
}.

(** The environment of a run: everything the script does not decide. *)
Record Env := mkEnv {
  (** [os.getenv] *)
  getenv : string → option string;
  (** [pd.read_csv] on the input files: a frame, or the exception raised *)
  read_csv : string → Encoding → Exc + DataFrame;
  (** whether a call raises, given the events so far *)
  fault : list Event → Call → option Exc;
  (** what [data.info()] prints *)
  info_text : DataFrame → string;
  (** [data.describe()] *)
  describe : DataFrame → DataFrame;
  (** [data.corr()] *)
  corr : DataFrame → DataFrame;
  (** [str(frame)], [frame.to_string()], [str(series)], [series.to_string()] *)
  frame_str : DataFrame → string;
  frame_to_string : DataFrame → string;
  series_str : Series → string;
  series_to_string : Series → string
}.

(** ** The monad: state, exceptions and [exit()] *)

Inductive Outcome (A : Type) :=
| Ret (a : A)
| Raise (e : Exc)
| Exit.
Arguments Ret {A} a.
Arguments Raise {A} e.
Arguments Exit {A}.

Definition M (A : Type) : Type := World → Outcome A * World.

Definition ret {A} (a : A) : M A := λ w, (Ret a, w).

Definition bind {A B} (m : M A) (k : A → M B) : M B := λ w,
  match m w with
  | (Ret a, w') => k a w'
  | (Raise e, w') => (Raise e, w')
  | (Exit, w') => (Exit, w')
  end.

(** [exit()]: raises [SystemExit], which no [except Exception] catches. *)
Definition exit_ {A} : M A := λ w, (Exit, w).

(** [try: body / except Exception as e: handler e] *)
Definition try_except {A} (body : M A) (handler : Exc → M A) : M A := λ w,
  match body w with
  | (Raise e, w') => handler e w'
  | r => r
  end.

(** stdpp's monad notations [x ← m; k] and [m;; k] are used for [M]. *)
Global Instance M_ret : MRet M := @ret.
Global Instance M_bind : MBind M := λ A B k m, bind m k.

(** [for x in l: body x] *)
Fixpoint for_each {A} (l : list A) (body : A → M unit) : M unit :=
  match l with
  | [] => ret tt
  | x :: rest => body x;; for_each rest body
  end.

(** ** os.path.join (posixpath, two arguments) *)

Definition starts_with_sep (s : string) : bool :=
  match s with
  | String c _ => if decide (c = "/"%char) then true else false
  | EmptyString => false
  end.

Fixpoint ends_with_sep (s : string) : bool :=
  match s with
  | EmptyString => false
  | String c EmptyString => if decide (c = "/"%char) then true else false
  | String _ s' => ends_with_sep s'
  end.

Definition os_path_join (a b : string) : string :=
  if starts_with_sep b then b
  else if decide (a = EmptyString) then a +:+ b
  else if ends_with_sep a then a +:+ b
  else a +:+ "/" +:+ b.

Definition nl : string := String "010" EmptyString.

(** ** Primitives *)

Definition record (ev : Event) (w : World) : World :=
  mkWorld (w_trace w ++ [ev]) (w_dirs w) (w_files w) (w_figs w).

Definition add_dir (path : string) (w : World) : World :=
  mkWorld (w_trace w) ({[path]} ∪ w_dirs w) (w_files w) (w_figs w).

Definition set_file (path : string) (c : Content) (w : World) : World :=
  mkWorld (w_trace w) (w_dirs w) (<[path := c]> (w_files w)) (w_figs w).

Definition set_figs (figs : list (list Artist)) (w : World) : World :=
  mkWorld (w_trace w) (w_dirs w) (w_files w) figs.

(** Text already in the file at [path]. *)
Definition file_text (path : string) (w : World) : string :=
  match w_files w !! path with
  | Some (Text s) => s
  | _ => EmptyString
  end.

(** The file at [path] grows by [s]. *)
Definition append_text (path : string) (s : string) (w : World) : World :=
  set_file path (Text (file_text path w +:+ s)) w.

Arguments record : simpl never.
Arguments add_dir : simpl never.
Arguments set_file : simpl never.
Arguments set_figs : simpl never.
Arguments file_text : simpl never.
Arguments append_text : simpl never.

(** [plt.gcf()]: the current figure, created if there is none. *)
Definition ensure_fig (figs : list (list Artist)) : list (list Artist) :=
  match figs with
  | [] => [[]]
  | _ => figs
  end.

Definition current_fig (figs : list (list Artist)) : list Artist :=
  match figs with
  | [] => []
  | fig :: _ => fig
  end.

(** Drawing on the current axes. *)
Definition draw (a : Artist) (figs : list (list Artist)) : list (list Artist) :=
  match figs with
  | [] => [[a]]
  | fig :: rest => (fig ++ [a]) :: rest
  end.

Section Program.

Context (env : Env).

(** [print(s)] *)
Definition print (s : string) : M unit := λ w, (Ret tt, record (EPrint s) w).

(** A call [c] that may raise: when it returns, it has effect [eff] on the
    world and value [v]. *)
Definition attempt {A} (c : Call) (eff : World → World) (v : A) : M A := λ w,
  match fault env (w_trace w) c with
  | Some e => (Raise e, record (ECall c (Some e)) w)
  | None => (Ret v, eff (record (ECall c None) w))
  end.

Definition os_getenv (name : string) : M (option string) :=
  ret (getenv env name).

Definition os_chdir : M unit := attempt OsChdir id tt.

(** [os.makedirs(path, exist_ok=...)]: an existing directory is accepted
    silently when [exist_ok] is set (only the leaf directory is tracked). *)
Definition os_makedirs (path : string) (exist_ok : bool) : M unit := λ w,
  if decide (path ∈ w_dirs w) then
    if exist_ok then (Ret tt, record (ECall (OsMakedirs path) None) w)
    else let e := mkExc FileExistsError path in
         (Raise e, record (ECall (OsMakedirs path) (Some e)) w)
  else attempt (OsMakedirs path) (add_dir path) tt w.

Definition pd_read_csv (path : string) (enc : Encoding) : M DataFrame := λ w,
  match read_csv env path enc with
  | inl e => (Raise e, record (ECall (PdReadCsv path enc) (Some e)) w)
  | inr data => (Ret data, record (ECall (PdReadCsv path enc) None) w)
  end.

(** [data.info()] prints its summary itself and returns [None]. *)
Definition df_info (data : DataFrame) : M unit :=
  attempt DfInfo id tt;; print (info_text env data).

Definition df_describe (data : DataFrame) : M DataFrame :=
  attempt DfDescribe id (describe env data).

Definition df_isnull_sum (data : DataFrame) : M Series :=
  attempt DfIsnullSum id (isnull_sum data).

Definition df_select_dtypes (data : DataFrame) (include : list Dtype) : M DataFrame :=
  attempt DfSelectDtypes id (select_dtypes data include).

Definition df_corr (data : DataFrame) : M DataFrame :=
  attempt DfCorr id (corr env data).

Definition to_string_frame (d : DataFrame) : M string :=
  attempt ToString id (frame_to_string env d).

Definition to_string_series (s : Series) : M string :=
  attempt ToString id (series_to_string env s).

Definition sns_set : M unit := attempt SnsSet id tt.

(** [plt.figure(...)]: a new empty figure becomes the current one. *)
Definition plt_figure : M unit :=
  attempt PltFigure (λ w, set_figs ([] :: w_figs w) w) tt.

(** [sns.heatmap(m, ...)]: drawn on the current axes. *)
Definition sns_heatmap (m : DataFrame) : M unit :=
  attempt SnsHeatmap (λ w, set_figs (draw (Heatmap m) (w_figs w)) w) tt.

(** [sns.pairplot(d)]: builds its grid on a figure of its own. *)
Definition sns_pairplot (d : DataFrame) : M unit :=
  attempt SnsPairplot (λ w, set_figs ([PairGrid d] :: w_figs w) w) tt.

(** [plt.savefig(path)]: writes the current figure. *)
Definition plt_savefig (path : string) : M unit :=
  attempt (PltSavefig path)
    (λ w, set_file path (Image (current_fig (w_figs w)))
            (set_figs (ensure_fig (w_figs w)) w)) tt.

(** [plt.close()]: closes the current figure. *)
Definition plt_close : M unit :=
  attempt PltClose (λ w, set_figs (tail (w_figs w)) w) tt.

(** [open(path, "w")]: creates or truncates the file. *)
Definition open_w (path : string) : M unit :=
  attempt (OpenW path) (set_file path (Text EmptyString)) tt.

(** [f.write(s)] on the file opened at [path]. *)
Definition f_write (path : string) (s : string) : M unit :=
  attempt (FWrite path s) (append_text path s) tt.

(** [with open(path, "w") as f: body]: closing the file has no effect on
    the modelled state, whether [body] returns or raises. *)
Definition with_open_w {A} (path : string) (body : M A) : M A :=
  open_w path;; body.

(** ** The script *)

Definition load_data (file_path : string) : M DataFrame :=
  try_except
    (data ← pd_read_csv file_path utf_8;
     print ("Data loaded successfully from " +:+ file_path);;
     mret data)
    (λ e,
       match exc_class e with
       | UnicodeDecodeError =>
           print "Error: File encoding not supported. Trying 'ISO-8859-1'.";;
           try_except
             (data ← pd_read_csv file_path iso_8859_1;
              print ("Data loaded successfully from " +:+ file_path
                     +:+ " with 'ISO-8859-1' encoding.");;
              mret data)
             (λ e', print ("Error loading file: " +:+ exc_msg e');; exit_)
       | FileNotFoundError => print "Error: File not found.";; exit_
       | EmptyDataError => print "Error: File is empty.";; exit_
       | _ => print ("Error loading file: " +:+ exc_msg e);; exit_
       end).

Definition analyze_data (data : DataFrame) : M unit :=
  print (nl +:+ "--- Dataset Overview ---" +:+ nl);;
  df_info data;; print "None";;
  print (nl +:+ "--- Summary Statistics ---" +:+ nl);;
  d ← df_describe data; print (frame_str env d);;
  print (nl +:+ "--- Missing Values ---" +:+ nl);;
  s ← df_isnull_sum data; print (series_str env s).

Definition visualize_data (data : DataFrame) (output_dir : string) : M unit :=
  try_except
    (sns_set;;
     numeric_data ← df_select_dtypes data [float64; int64];
     (if negb (df_empty numeric_data) then
        plt_figure;;
        m ← df_corr numeric_data;
        sns_heatmap m;;
        let heatmap_path := os_path_join output_dir "correlation_heatmap.png" in
        plt_savefig heatmap_path;;
        print ("Correlation heatmap saved to " +:+ heatmap_path);;
        plt_close
      else mret tt);;
     (if negb (df_empty numeric_data) then
        let pairplot_path := os_path_join output_dir "pairplot.png" in
        sns_pairplot numeric_data;;
        plt_savefig pairplot_path;;
        print ("Pairplot saved to " +:+ pairplot_path);;
        plt_close
      else mret tt))
    (λ e, print ("Error creating visualizations: " +:+ exc_msg e)).

Definition generate_markdown_report (data : DataFrame) (output_dir : string) : M unit :=
  try_except
    (let report_path := os_path_join output_dir "README.md" in
     with_open_w report_path
       (f_write report_path ("# Data Analysis Report" +:+ nl +:+ nl);;
        f_write report_path ("## Dataset Overview" +:+ nl +:+ nl);;
        f_write report_path
          ("Shape of the dataset: " +:+ shape_str data +:+ nl +:+ nl);;
        f_write report_path ("### Missing Values" +:+ nl +:+ nl);;
        s ← df_isnull_sum data;
        t ← to_string_series s;
        f_write report_path t;;
        f_write report_path (nl +:+ nl);;
        f_write report_path ("### Summary Statistics" +:+ nl +:+ nl);;
        d ← df_describe data;
        t ← to_string_frame d;
        f_write report_path t;;
        f_write report_path nl);;
     print ("Markdown report saved to " +:+ report_path))
    (λ e, print ("Error generating Markdown report: " +:+ exc_msg e)).

(** The input datasets of [main], in insertion order. *)
Definition datasets : list (string * string) :=
  [ ("goodreads", "C:/Users/Rohit/goodreads.csv");
    ("happiness", "C:/Users/Rohit/happiness.csv");
    ("media", "C:/Users/Rohit/media.csv") ].

(** The body of the loop of [main] over [datasets.items()]. *)
Definition process_dataset (output_dir : string) (item : string * string) : M unit :=
  let '(name, file_path) := item in
  print (nl +:+ "Processing dataset: " +:+ name);;
  data ← load_data file_path;
  let dataset_dir := os_path_join output_dir name in
  os_makedirs dataset_dir true;;
  analyze_data data;;
  visualize_data data dataset_dir;;
  generate_markdown_report data dataset_dir.

(** [if not aip_token]: [None] and the empty string are falsy. *)
Definition falsy (token : option string) : bool :=
  match token with
  | None => true
  | Some s => if decide (s = EmptyString) then true else false
  end.

Definition main : M unit :=
  os_chdir;;
  aip_token ← os_getenv "AIPROXY_TOKEN";
  if falsy aip_token then
    print "Error: AIPROXY_TOKEN environment variable not set.";; exit_
  else
    let output_dir := "results" in
    os_makedirs output_dir true;;
    for_each datasets (process_dataset output_dir).

End Program.

(** ** Observations on a run *)

(** The path an event wrote to, if it wrote. *)
Definition written (ev : Event) : option string :=
  match ev with
  | ECall (PltSavefig p) None => Some p
  | ECall (OpenW p) None => Some p
  | ECall (FWrite p _) None => Some p
  | _ => None
  end.

(** Every write among [evs] goes to one of the [allowed] paths. *)
Definition writes_within (allowed : list string) (evs : list Event) : Prop :=
  Forall (λ ev, ∀ p, written ev = Some p → p ∈ allowed) evs.

(** The stages of the pipeline.  Each is recognised in a trace by the first
    library call its function makes, a call no other function makes:
    [load_data] by its UTF-8 [pd.read_csv], the directory creation by
    [os.makedirs], [analyze_data] by [data.info()], [visualize_data] by
    [sns.set] and [generate_markdown_report] by [open]. *)
Inductive Stage :=
| SLoad (file_path : string)
| SMkdir (dir : string)
| SAnalyze
| SVisualize
| SReport (report_path : string).

Definition stage_of (ev : Event) : option Stage :=
  match ev with
  | ECall (PdReadCsv f utf_8) _ => Some (SLoad f)
  | ECall (OsMakedirs d) _ => Some (SMkdir d)
  | ECall DfInfo _ => Some SAnalyze
  | ECall SnsSet _ => Some SVisualize
  | ECall (OpenW p) _ => Some (SReport p)
  | _ => None
  end.

Definition stages (evs : list Event) : list Stage := omap stage_of evs.

(** The stages of one dataset, in the order the loop of [main] runs them. *)
Definition dataset_stages (output_dir : string) (item : string * string) : list Stage :=
  let dataset_dir := os_path_join output_dir item.1 in
  [ SLoad item.2; SMkdir dataset_dir; SAnalyze; SVisualize;
    SReport (os_path_join dataset_dir "README.md") ].


(** The three artifacts of a dataset directory. *)
Definition artifacts (dir : string) : list string :=
  [ os_path_join dir "correlation_heatmap.png";
    os_path_join dir "pairplot.png";
    os_path_join dir "README.md" ].





(** The lines printed among [evs], in order. *)
Definition prints (evs : list Event) : list string :=
  omap (λ ev, match ev with
              | EPrint line => Some line
              | _ => None
              end) evs.

(** The lines [analyze_data] prints when nothing stops it. *)
Definition analysis_lines (env : Env) (data : DataFrame) : list string :=
  [ nl +:+ "--- Dataset Overview ---" +:+ nl;
    info_text env data;
    "None";
    nl +:+ "--- Summary Statistics ---" +:+ nl;
    frame_str env (describe env data);
    nl +:+ "--- Missing Values ---" +:+ nl;
    series_str env (isnull_sum data) ].

(** The line [load_data] prints in the [except] clause that a failed UTF-8
    attempt reaches when it is not a decoding error. *)
Definition load_error_line (e : Exc) : string :=
  match exc_class e with
  | FileNotFoundError => "Error: File not found."
  | EmptyDataError => "Error: File is empty."
  | _ => "Error loading file: " +:+ exc_msg e
  end.



(** The artifacts of all the datasets of a mapping under [output_dir]. *)
Definition all_artifacts (output_dir : string) (ds : list (string * string)) : list string :=
  concat (map (λ item, artifacts (os_path_join output_dir item.1)) ds).

(** *** The NumericSubset as the specification words it

    The projection of a Dataset onto the columns whose values are
    floating-point or integer. *)
Definition is_numeric (d : Dtype) : bool :=
  bool_decide (d ∈ [ int8; int16; int32; int64; uint8; uint16; uint32; uint64;
                     float16; float32; float64 ]).

Definition NumericSubset (data : DataFrame) : list Column :=
  filter (λ c, is_numeric (col_dtype c) = true) (df_columns data).

(** ** Sample frames and environments *)

(** Columns [id:int, score:float, name:text]. *)
Definition sample : DataFrame :=
  mkFrame 2 [ mkColumn "id" int64 [Some "1"; Some "2"];
              mkColumn "score" float64 [Some "0.5"; None];
              mkColumn "name" object_ [Some "a"; Some "b"] ].

(** Text columns only. *)
Definition all_text : DataFrame :=
  mkFrame 2 [ mkColumn "name" object_ [Some "a"; Some "b"];
              mkColumn "city" object_ [None; Some "x"] ].



(** Nothing raises; every file parses to [data]. *)
Definition quiet (data : DataFrame) : Env :=
  mkEnv (λ _, Some "token") (λ _ _, inr data) (λ _ _, None)
        (λ _, "<info>") (λ d, d) (λ d, d)
        (λ _, "<frame>") (λ _, "<frame.to_string>")
        (λ _, "<series>") (λ _, "<series.to_string>").


(** As [quiet], but reading any file as [enc] raises [e] whenever
    [fails enc] is some [e]. *)
Definition unreadable (data : DataFrame) (fails : Encoding → option Exc) : Env :=
  mkEnv (λ _, Some "token")
        (λ _ enc, match fails enc with Some e => inl e | None => inr data end)
        (λ _ _, None)
        (λ _, "<info>") (λ d, d) (λ d, d)
        (λ _, "<frame>") (λ _, "<frame.to_string>")
        (λ _, "<series>") (λ _, "<series.to_string>").



(** A float column over an empty index. *)
Definition no_rows : DataFrame :=
  mkFrame 0 [ mkColumn "score" float64 [] ].

(** As [quiet], but the environment variable is not set. *)
Definition without_token (data : DataFrame) : Env :=
  mkEnv (λ _, None) (λ _ _, inr data) (λ _ _, None)
        (λ _, "<info>") (λ d, d) (λ d, d)
        (λ _, "<frame>") (λ _, "<frame.to_string>")
        (λ _, "<series>") (λ _, "<series.to_string>").

Definition is_describe (c : Call) : bool :=
  match c with DfDescribe => true | _ => false end.

(** A file that does not exist. *)
Definition missing (enc : Encoding) : option Exc :=
  Some (mkExc FileNotFoundError "No such file or directory").

Definition decode_error : Exc :=
  mkExc UnicodeDecodeError "'utf-8' codec can't decode byte 0xe9".


(** A file that fails to decode as UTF-8 and to parse under ISO-8859-1. *)
Definition both_fail (enc : Encoding) : option Exc :=
  match enc with
  | utf_8 => Some decode_error
  | iso_8859_1 => Some (mkExc OtherException "Error tokenizing data")
  end.

(** The world before the run: no events, an empty file system, no figure. *)
Definition w0 : World := mkWorld [] ∅ ∅ [].

(** ** Facts about worlds *)

Section world_facts.
Implicit Types (w : World) (ev : Event) (p q s : string).

Lemma trace_record ev w : w_trace (record ev w) = w_trace w ++ [ev].
Proof. done. Qed.
Lemma trace_add_dir p w : w_trace (add_dir p w) = w_trace w.
Proof. done. Qed.
Lemma trace_set_file p c w : w_trace (set_file p c w) = w_trace w.
Proof. done. Qed.
Lemma trace_set_figs f w : w_trace (set_figs f w) = w_trace w.
Proof. done. Qed.
Lemma trace_append_text p s w : w_trace (append_text p s w) = w_trace w.
Proof. done. Qed.

Lemma dirs_record ev w : w_dirs (record ev w) = w_dirs w.
Proof. done. Qed.
Lemma dirs_add_dir p w : w_dirs (add_dir p w) = {[p]} ∪ w_dirs w.
Proof. done. Qed.
Lemma dirs_set_file p c w : w_dirs (set_file p c w) = w_dirs w.
Proof. done. Qed.
Lemma dirs_set_figs f w : w_dirs (set_figs f w) = w_dirs w.
Proof. done. Qed.
Lemma dirs_append_text p s w : w_dirs (append_text p s w) = w_dirs w.
Proof. done. Qed.

Lemma files_record ev w : w_files (record ev w) = w_files w.
Proof. done. Qed.
Lemma files_add_dir p w : w_files (add_dir p w) = w_files w.
Proof. done. Qed.
Lemma files_set_file p c w : w_files (set_file p c w) = <[p := c]> (w_files w).
Proof. done. Qed.
Lemma files_set_figs f w : w_files (set_figs f w) = w_files w.
Proof. done. Qed.
Lemma files_append_text p s w :
  w_files (append_text p s w) = <[p := Text (file_text p w +:+ s)]> (w_files w).
Proof. done. Qed.

Lemma figs_record ev w : w_figs (record ev w) = w_figs w.
Proof. done. Qed.
Lemma figs_add_dir p w : w_figs (add_dir p w) = w_figs w.
Proof. done. Qed.
Lemma figs_set_file p c w : w_figs (set_file p c w) = w_figs w.
Proof. done. Qed.
Lemma figs_set_figs f w : w_figs (set_figs f w) = f.
Proof. done. Qed.
Lemma figs_append_text p s w : w_figs (append_text p s w) = w_figs w.
Proof. done. Qed.

Lemma text_record p ev w : file_text p (record ev w) = file_text p w.
Proof. done. Qed.
Lemma text_set_figs p f w : file_text p (set_figs f w) = file_text p w.
Proof. done. Qed.
Lemma text_set_file p s w : file_text p (set_file p (Text s) w) = s.
Proof. unfold file_text. by rewrite files_set_file, lookup_insert_eq. Qed.
Lemma text_append_text p s w :
  file_text p (append_text p s w) = file_text p w +:+ s.
Proof. unfold append_text. apply text_set_file. Qed.

(** The trace of a world built from [w]: the events [w] had, then more. *)
Lemma ext_refl w : w_trace w = w_trace w ++ [].
Proof. by rewrite app_nil_r. Qed.
Lemma ext_record ev w w' evs :
  w_trace w' = w_trace w ++ evs →
  w_trace (record ev w') = w_trace w ++ (evs ++ [ev]).
Proof. intros H. by rewrite trace_record, H, app_assoc. Qed.
Lemma ext_add_dir p w w' evs :
  w_trace w' = w_trace w ++ evs → w_trace (add_dir p w') = w_trace w ++ evs.
Proof. done. Qed.
Lemma ext_set_file p c w w' evs :
  w_trace w' = w_trace w ++ evs → w_trace (set_file p c w') = w_trace w ++ evs.
Proof. done. Qed.
Lemma ext_set_figs f w w' evs :
  w_trace w' = w_trace w ++ evs → w_trace (set_figs f w') = w_trace w ++ evs.
Proof. done. Qed.
Lemma ext_append_text p s w w' evs :
  w_trace w' = w_trace w ++ evs →
  w_trace (append_text p s w') = w_trace w ++ evs.
Proof. done. Qed.
End world_facts.


Lemma lookup_append_text_ne p q s w :
  p ≠ q → w_files (append_text p s w) !! q = w_files w !! q.
Proof. intros. by rewrite files_append_text, lookup_insert_ne. Qed.

Lemma lookup_set_file_ne p q c w :
  p ≠ q → w_files (set_file p c w) !! q = w_files w !! q.
Proof. intros. by rewrite files_set_file, lookup_insert_ne. Qed.

(** ** Facts about paths *)

Lemma append_inj_r (a b b' : string) : a +:+ b = a +:+ b' → b = b'.
Proof. induction a as [|c a IH]; simpl; [done|]. intros [= H]. auto. Qed.

(** Two relative names joined to one directory give two paths. *)
Lemma os_path_join_inj a b b' :
  starts_with_sep b = false → starts_with_sep b' = false →
  os_path_join a b = os_path_join a b' → b = b'.
Proof.
  unfold os_path_join. intros -> ->.
  destruct (decide (a = EmptyString)); [apply append_inj_r|].
  destruct (ends_with_sep a); [apply append_inj_r|].
  intros H%append_inj_r. by apply append_inj_r in H.
Qed.

Create Rewrite HintDb world.
#[global] Hint Rewrite
  trace_record trace_add_dir trace_set_file trace_set_figs trace_append_text
  dirs_record dirs_add_dir dirs_set_file dirs_set_figs dirs_append_text
  files_record files_add_dir files_set_file files_set_figs files_append_text
  figs_record figs_add_dir figs_set_file figs_set_figs figs_append_text
  text_record text_set_figs text_set_file text_append_text : world.

(** ** Symbolic execution *)

Ltac unfold_prims :=
  unfold df_info, with_open_w, try_except, mbind, M_bind, mret, M_ret, bind,
    ret, exit_, print, open_w, f_write, plt_close, plt_savefig, sns_pairplot,
    sns_heatmap, plt_figure, sns_set, to_string_series, to_string_frame,
    df_corr, df_select_dtypes, df_isnull_sum, df_describe,
    os_chdir, os_getenv, os_makedirs, pd_read_csv, attempt in *.

(** One step: decide the next thing the environment is asked. *)
Ltac exec_step :=
  match goal with
  | H : ∀ tr c, fault _ tr c = None |- context [fault ?e ?t ?c] =>
      rewrite (H t c)
  | H : read_csv ?e ?p ?c = _ |- context [read_csv ?e ?p ?c] => rewrite H
  | H : df_empty ?d = _ |- context [df_empty ?d] => rewrite H
  | |- context [fault ?e ?t ?c] => destruct (fault e t c)
  | |- context [read_csv ?e ?p ?c] => destruct (read_csv e p c)
  | |- context [match exc_class ?e with _ => _ end] =>
      destruct (exc_class e)
  | |- context [df_empty ?d] => destruct (df_empty d)
  | |- context [decide (?p ∈ w_dirs ?w)] => destruct (decide (p ∈ w_dirs w))
  end; simpl.

Ltac exec := unfold_prims; simpl; repeat exec_step.

(** Read the events a run added off its final world. *)
Ltac trace_ext :=
  repeat first [ apply ext_record | apply ext_add_dir | apply ext_set_file
               | apply ext_set_figs | apply ext_append_text ];
  apply ext_refl.

Ltac solve_elem :=
  repeat first [ apply list_elem_of_here | apply list_elem_of_further ].

(** [H : x ∈ [a; b; ...]] where [x] differs from each by its constructor. *)
Ltac no_elem H :=
  repeat (apply elem_of_cons in H; destruct H as [H|H]; [discriminate H|]);
  by apply elem_of_nil in H.

(** [H : ECall c (Some e) ∈ evs]: the failed call is found in [evs] and the
    line that logs it after it. *)
Ltac logged H :=
  repeat (apply elem_of_cons in H; destruct H as [H|H];
          [ first [ discriminate H | simplify_eq; solve_elem ] | ]);
  by apply elem_of_nil in H.

Ltac solve_writes :=
  unfold writes_within; simpl;
  repeat (constructor;
          [ simpl; let H := fresh in
            intros ? H; first [ discriminate H | injection H as <-; solve_elem ]
          | ]);
  constructor.

(** ** The events of each stage *)

Section stage_events.
Context (env : Env).

(** [load_data] returns a frame or exits; it never lets an exception
    out, makes no write, and reads UTF-8 first. *)
Lemma load_data_events file w :
  ∃ o w' evs, load_data env file w = (o, w') ∧
    w_trace w' = w_trace w ++ evs ∧
    (∀ e, o ≠ Raise e) ∧
    stages evs = [SLoad file] ∧ writes_within [] evs.
Proof.
  unfold load_data. exec.
  all: eexists _, _, _; split; [reflexivity|]; split; [trace_ext|].
  all: split; [done|]; split; [done|solve_writes].
Qed.

(** [analyze_data] writes nothing; it returns or raises. *)
Lemma analyze_data_events data w :
  ∃ o w' evs, analyze_data env data w = (o, w') ∧
    w_trace w' = w_trace w ++ evs ∧
    o ≠ Exit ∧
    stages evs = [SAnalyze] ∧ writes_within [] evs.
Proof.
  unfold analyze_data. exec.
  all: eexists _, _, _; split; [reflexivity|]; split; [trace_ext|].
  all: split; [done|]; split; [done|solve_writes].
Qed.

(** [visualize_data] always returns; it writes only its two images. *)
Lemma visualize_data_events data dir w :
  ∃ w' evs, visualize_data env data dir w = (Ret tt, w') ∧
    w_trace w' = w_trace w ++ evs ∧
    stages evs = [SVisualize] ∧
    writes_within [ os_path_join dir "correlation_heatmap.png";
                    os_path_join dir "pairplot.png" ] evs ∧
    ∀ c e, ECall c (Some e) ∈ evs →
           EPrint ("Error creating visualizations: " +:+ exc_msg e) ∈ evs.
Proof.
  unfold visualize_data. exec.
  all: eexists _, _; split; [reflexivity|]; split; [trace_ext|].
  all: split; [done|]; split; [solve_writes|].
  all: simpl; intros c e' Hin; logged Hin.
Qed.

(** [generate_markdown_report] always returns; it writes only the report,
    and it always attempts to open it. *)
Lemma generate_markdown_report_events data dir w :
  ∃ w' evs, generate_markdown_report env data dir w = (Ret tt, w') ∧
    w_trace w' = w_trace w ++ evs ∧
    stages evs = [SReport (os_path_join dir "README.md")] ∧
    writes_within [os_path_join dir "README.md"] evs ∧
    (∀ c e, ECall c (Some e) ∈ evs →
            EPrint ("Error generating Markdown report: " +:+ exc_msg e) ∈ evs) ∧
    ∃ r, ECall (OpenW (os_path_join dir "README.md")) r ∈ evs.
Proof.
  unfold generate_markdown_report. exec.
  all: eexists _, _; split; [reflexivity|]; split; [trace_ext|].
  all: split; [done|]; split; [solve_writes|].
  all: simpl; split; [intros c e' Hin; logged Hin|].
  all: eexists; apply list_elem_of_here.
Qed.
End stage_events.

(** ** The Loader *)

Section loader.
Context (env : Env).


(** C3.  When the UTF-8 attempt on a dataset's file raises and either the
    error is not a decoding error (file not found, no parsable rows, any
    other failure) or the ISO-8859-1 retry raises too, [load_data] exits,
    and with it the loop over the datasets: the only stage the run has
    entered from there on is this Loader, so no later dataset is
    attempted. *)
Theorem load_failure_terminates_run out name file rest w e :
  read_csv env file utf_8 = inl e →
  (exc_class e = UnicodeDecodeError →
   ∃ e', read_csv env file iso_8859_1 = inl e') →
  (load_data env file w).1 = Exit ∧
  ∃ w' evs,
    for_each ((name, file) :: rest) (process_dataset env out) w = (Exit, w') ∧
    w_trace w' = w_trace w ++ evs ∧
    stages evs = [SLoad file].
Proof.
  intros Hutf Hretry. simpl. unfold process_dataset, load_data.
  unfold_prims. simpl. rewrite Hutf. simpl.
  destruct (exc_class e) eqn:Hclass; simpl.
  1: destruct Hretry as [e' ->]; [done|]; simpl.
  all: split; [done|]; eexists _, _; split; [reflexivity|].
  all: split; [trace_ext|done].
Qed.
End loader.

(** ** The Visualizer on frames without numeric columns *)

Section visualizer_empty.
Context (env : Env).

(** The frame [visualize_data] selects is within the NumericSubset. *)
Lemma selected_within_numeric data :
  NumericSubset data = [] →
  df_empty (select_dtypes data [float64; int64]) = true.
Proof.
  unfold NumericSubset, df_empty, select_dtypes. simpl.
  intros Hnone. apply orb_true_iff. right. apply Nat.eqb_eq.
  induction (df_columns data) as [|c cols IH]; [done|].
  rewrite filter_cons in Hnone. rewrite filter_cons.
  destruct (decide (is_numeric (col_dtype c) = true)) as [|Hnot]; [done|].
  destruct (decide (col_dtype c ∈ [float64; int64])) as [Hin|]; [|auto].
  exfalso. apply Hnot. unfold is_numeric.
  apply bool_decide_eq_true.
  apply elem_of_cons in Hin as [->|Hin];
    [|apply list_elem_of_singleton in Hin as ->]; solve_elem.
Qed.

(** C5.  On a Dataset whose NumericSubset is empty, [visualize_data]
    returns normally, attempts no [plt.savefig] at all and leaves the files
    as they were. *)
Theorem no_numeric_columns_no_images data dir w :
  NumericSubset data = [] →
  ∃ w' evs, visualize_data env data dir w = (Ret tt, w') ∧
    w_trace w' = w_trace w ++ evs ∧
    w_files w' = w_files w ∧
    ∀ p r, ECall (PltSavefig p) r ∉ evs.
Proof.
  intros Hempty%selected_within_numeric.
  unfold visualize_data. exec.
  all: eexists _, _; split; [reflexivity|]; split; [trace_ext|].
  all: split; [by autorewrite with world|].
  all: simpl; intros p r Hin; no_elem Hin.
Qed.
End visualizer_empty.

(** ** One pass of the loop of [main] *)

Section loop_body.
Context (env : Env).

Lemma stages_app evs1 evs2 : stages (evs1 ++ evs2) = stages evs1 ++ stages evs2.
Proof. apply omap_app. Qed.

Lemma writes_within_app allowed evs1 evs2 :
  writes_within allowed evs1 → writes_within allowed evs2 →
  writes_within allowed (evs1 ++ evs2).
Proof. intros H1 H2. by apply Forall_app. Qed.

Lemma writes_within_mono allowed allowed' evs :
  (∀ p, p ∈ allowed → p ∈ allowed') →
  writes_within allowed evs → writes_within allowed' evs.
Proof.
  intros Hsub Hw. eapply Forall_impl; [exact Hw|].
  intros ev Hev p Hp. eauto.
Qed.

(** The events of one pass: first those of the Loader, the directory
    creation and the Analyzer ([pre]), none of them a write; then those of
    the Visualizer and the Reporter ([post]), whose writes all go to the
    artifacts of the dataset's directory, which [pre] has created by then.
    The stages come in the order of [dataset_stages], all of them when the
    pass returns. *)
Lemma process_dataset_events out name file w :
  let dir := os_path_join out name in
  ∃ o w' pre post,
    process_dataset env out (name, file) w = (o, w') ∧
    w_trace w' = w_trace w ++ pre ++ post ∧
    writes_within [] pre ∧
    writes_within (artifacts dir) post ∧
    (post ≠ [] → ECall (OsMakedirs dir) None ∈ pre) ∧
    stages (pre ++ post) `prefix_of` dataset_stages out (name, file) ∧
    (o = Ret tt → stages (pre ++ post) = dataset_stages out (name, file)).
Proof.
  intros dir. unfold process_dataset. fold dir.
  unfold mbind, M_bind, bind at 1, print.
  set (line := EPrint (nl +:+ "Processing dataset: " +:+ name)).
  set (mk := λ r, ECall (OsMakedirs dir) r).
  destruct (load_data_events env file (record line w))
    as (o1 & w1 & evs1 & Hrun1 & Htr1 & Hnoraise & Hst1 & Hwr1).
  rewrite trace_record in Htr1.
  assert (Hline : writes_within [] [line]) by solve_writes.
  unfold bind at 1. rewrite Hrun1.
  destruct o1 as [data|e|]; [|by destruct (Hnoraise e)|].
  2:{ exists Exit, w1, ([line] ++ evs1), [].
      rewrite app_nil_r, stages_app, Hst1, Htr1, <- app_assoc.
      repeat split; try done.
      - by apply writes_within_app.
      - constructor.
      - by eexists. }
  assert (Hmk : ∀ r, writes_within [] [mk r]) by (intros [?|]; solve_writes).
  assert (Hfail : ∀ e w2, w_trace w2 = w_trace w1 ++ [mk (Some e)] →
    ∃ o w' pre post, (@Raise unit e, w2) = (o, w') ∧
      w_trace w' = w_trace w ++ pre ++ post ∧
      writes_within [] pre ∧ writes_within (artifacts dir) post ∧
      (post ≠ [] → mk None ∈ pre) ∧
      stages (pre ++ post) `prefix_of` dataset_stages out (name, file) ∧
      (o = Ret tt → stages (pre ++ post) = dataset_stages out (name, file))).
  { intros e w2 Htr2. exists (Raise e), w2, ([line] ++ evs1 ++ [mk (Some e)]), [].
    rewrite app_nil_r, !stages_app, Hst1, Htr2, Htr1, <- !app_assoc.
    repeat split; try done.
    - by repeat apply writes_within_app.
    - constructor.
    - by eexists. }
  assert (Hgo : ∀ w2, w_trace w2 = w_trace w1 ++ [mk None] →
    ∃ o w' pre post,
      bind (analyze_data env data) (λ _,
        bind (visualize_data env data dir) (λ _,
          generate_markdown_report env data dir)) w2 = (o, w') ∧
      w_trace w' = w_trace w ++ pre ++ post ∧
      writes_within [] pre ∧ writes_within (artifacts dir) post ∧
      (post ≠ [] → mk None ∈ pre) ∧
      stages (pre ++ post) `prefix_of` dataset_stages out (name, file) ∧
      (o = Ret tt → stages (pre ++ post) = dataset_stages out (name, file))).
  { intros w2 Htr2.
    destruct (analyze_data_events env data w2)
      as (o3 & w3 & evs3 & Hrun3 & Htr3 & Hnoexit & Hst3 & Hwr3).
    unfold bind at 1. rewrite Hrun3.
    destruct o3 as [[]|e|]; [| |done].
    2:{ exists (Raise e), w3, ([line] ++ evs1 ++ [mk None] ++ evs3), [].
        rewrite app_nil_r, !stages_app, Hst1, Hst3, Htr3, Htr2, Htr1,
          <- !app_assoc.
        repeat split; try done.
        - by repeat apply writes_within_app.
        - constructor.
        - by eexists. }
    destruct (visualize_data_events env data dir w3)
      as (w4 & evs4 & Hrun4 & Htr4 & Hst4 & Hwr4 & _).
    unfold bind at 1. rewrite Hrun4.
    destruct (generate_markdown_report_events env data dir w4)
      as (w5 & evs5 & Hrun5 & Htr5 & Hst5 & Hwr5 & _ & _).
    rewrite Hrun5.
    exists (Ret tt), w5, ([line] ++ evs1 ++ [mk None] ++ evs3), (evs4 ++ evs5).
    rewrite !stages_app, Hst1, Hst3, Hst4, Hst5, Htr5, Htr4, Htr3, Htr2, Htr1,
      <- !app_assoc.
    repeat split; try done.
    - by repeat apply writes_within_app.
    - apply writes_within_app;
        (eapply writes_within_mono; [|eassumption]);
        intros p Hp; unfold artifacts;
        repeat (apply elem_of_cons in Hp as [->|Hp]; [solve_elem|]);
        by apply elem_of_nil in Hp.
    - intros _. rewrite !elem_of_app. right. right. left. solve_elem. }
  unfold bind at 1, os_makedirs, attempt.
  destruct (decide (dir ∈ w_dirs w1)); cbv beta iota.
  - apply Hgo. by rewrite trace_record.
  - destruct (fault env (w_trace w1) (OsMakedirs dir)) as [e|]; cbv beta iota.
    + apply Hfail. by rewrite trace_record.
    + apply Hgo. by rewrite trace_add_dir, trace_record.
Qed.
End loop_body.

(** ** The loop of [main] *)

Section loop.
Context (env : Env).

Lemma for_each_cons {A} (x : A) l (body : A → M unit) w :
  for_each (x :: l) body w = bind (body x) (λ _, for_each l body) w.
Proof. done. Qed.

(** The stages a run of the loop enters are those of its datasets, in
    order, each dataset's in the order of [dataset_stages]. *)
Lemma for_each_stages out ds w :
  ∃ o w' evs, for_each ds (process_dataset env out) w = (o, w') ∧
    w_trace w' = w_trace w ++ evs ∧
    stages evs `prefix_of` concat (map (dataset_stages out) ds) ∧
    (o = Ret tt → stages evs = concat (map (dataset_stages out) ds)).
Proof.
  revert w. induction ds as [|[name file] ds IH]; intros w.
  - exists (Ret tt), w, []. by rewrite app_nil_r.
  - destruct (process_dataset_events env out name file w)
      as (o1 & w1 & pre & post & Hrun1 & Htr1 & _ & _ & _ & Hpre1 & Hall1).
    rewrite for_each_cons. unfold bind at 1. rewrite Hrun1.
    destruct o1 as [[]|e|].
    + destruct (IH w1) as (o & w' & evs & Hrun & Htr & Hpre & Hall).
      exists o, w', ((pre ++ post) ++ evs).
      rewrite stages_app, Hall1, Htr, Htr1, <- !app_assoc by done.
      repeat split; try done.
      * by apply prefix_app.
      * intros Ho. by rewrite Hall.
    + exists (Raise e), w1, (pre ++ post). repeat split; try done.
      by apply prefix_app_r.
    + exists Exit, w1, (pre ++ post). repeat split; try done.
      by apply prefix_app_r.
Qed.



End loop.

(** ** The Visualizer and the Reporter when nothing raises *)

Section quiet_runs.
Context (env : Env).
Hypothesis quiet_env : ∀ tr c, fault env tr c = None.


End quiet_runs.

(** ** The Visualizer under any environment *)

Section visualizer.
Context (env : Env).


End visualizer.

(** ** The claims on concrete runs *)





(** *** Instances of the theorems *)



(** The first file of [main] decodes under neither encoding: the run
    exits in its Loader. *)
Lemma load_failure_terminates_run_witness :
  (load_data (unreadable sample both_fail) "C:/Users/Rohit/goodreads.csv" w0).1
    = Exit ∧
  ∃ w' evs,
    for_each datasets (process_dataset (unreadable sample both_fail) "results") w0
      = (Exit, w') ∧
    w_trace w' = w_trace w0 ++ evs ∧
    stages evs = [SLoad "C:/Users/Rohit/goodreads.csv"].
Proof.
  apply (load_failure_terminates_run (unreadable sample both_fail) "results"
           "goodreads" "C:/Users/Rohit/goodreads.csv" (tail datasets) w0
           decode_error).
  - reflexivity.
  - intros _. eexists. reflexivity.
Defined.


(** A frame of text columns gets no image. *)
Lemma no_numeric_columns_no_images_witness :
  ∃ w' evs,
    visualize_data (quiet all_text) all_text "results/media" w0 = (Ret tt, w') ∧
    w_trace w' = w_trace w0 ++ evs ∧
    w_files w' = w_files w0 ∧
    ∀ p r, ECall (PltSavefig p) r ∉ evs.
Proof.
  apply (no_numeric_columns_no_images (quiet all_text) all_text
           "results/media" w0).
  reflexivity.
Defined.






(** * Further properties of the script *)

(** ** [main] before and around its loop *)

Section main_facts.
Context (env : Env).

Lemma all_artifacts_cons out item ds :
  all_artifacts out (item :: ds)
  = artifacts (os_path_join out item.1) ++ all_artifacts out ds.
Proof. done. Qed.

(** Every write of a run of the loop goes to an artifact of one of its
    datasets. *)
Lemma for_each_writes out ds w :
  ∃ o w' evs, for_each ds (process_dataset env out) w = (o, w') ∧
    w_trace w' = w_trace w ++ evs ∧
    writes_within (all_artifacts out ds) evs.
Proof.
  revert w. induction ds as [|[name file] ds IH]; intros w.
  - exists (Ret tt), w, []. rewrite app_nil_r. repeat split. constructor.
  - destruct (process_dataset_events env out name file w)
      as (o1 & w1 & pre & post & Hrun1 & Htr1 & Hpre & Hpost & _).
    assert (Hhere : writes_within (all_artifacts out ((name, file) :: ds))
                      (pre ++ post)).
    { apply writes_within_app.
      - eapply writes_within_mono; [|exact Hpre].
        intros p Hp. by apply elem_of_nil in Hp.
      - eapply writes_within_mono; [|exact Hpost].
        intros p Hp. rewrite all_artifacts_cons.
        apply elem_of_app. by left. }
    rewrite for_each_cons. unfold bind at 1. rewrite Hrun1.
    destruct o1 as [[]|e|].
    + destruct (IH w1) as (o & w' & evs & Hrun & Htr & Hwr).
      exists o, w', ((pre ++ post) ++ evs).
      rewrite Htr, Htr1, <- !app_assoc. repeat split; [done|].
      rewrite app_assoc. apply writes_within_app; [done|].
      eapply writes_within_mono; [|exact Hwr].
      intros p Hp. rewrite all_artifacts_cons.
      apply elem_of_app. by right.
    + by exists (Raise e), w1, (pre ++ post).
    + by exists Exit, w1, (pre ++ post).
Qed.

(** X1.  Without a non-empty AIPROXY_TOKEN in the environment, [main]
    never returns normally and enters no stage: it creates no directory,
    loads no dataset and changes no file; when [os.chdir] has returned, it
    prints the error line and exits. *)
Theorem main_requires_token w :
  falsy (getenv env "AIPROXY_TOKEN") = true →
  ∃ o w' evs, main env w = (o, w') ∧
    w_trace w' = w_trace w ++ evs ∧
    o ≠ Ret tt ∧
    stages evs = [] ∧
    w_dirs w' = w_dirs w ∧ w_files w' = w_files w ∧
    (fault env (w_trace w) OsChdir = None →
     o = Exit ∧
     evs = [ ECall OsChdir None;
             EPrint "Error: AIPROXY_TOKEN environment variable not set." ]).
Proof.
  intros Hfalsy. unfold main, os_chdir, os_getenv, attempt, id.
  unfold mbind, M_bind, bind at 1.
  destruct (fault env (w_trace w) OsChdir) as [e|].
  - eexists _, _, _. split; [reflexivity|]. split; [trace_ext|].
    simpl. by repeat split.
  - unfold bind at 1, ret. rewrite Hfalsy. unfold bind, print, exit_.
    eexists _, _, _. split; [reflexivity|]. split; [trace_ext|].
    simpl. by repeat split.
Qed.

(** X2.  The stages of any run of [main] come in one order: the results
    directory, then for each dataset of the mapping its Loader, its
    directory, its Analyzer, its Visualizer and its Reporter; a run that
    returns has entered them all. *)
Theorem main_stage_order w :
  ∃ o w' evs, main env w = (o, w') ∧
    w_trace w' = w_trace w ++ evs ∧
    stages evs `prefix_of`
      SMkdir "results" :: concat (map (dataset_stages "results") datasets) ∧
    (o = Ret tt →
     stages evs
     = SMkdir "results" :: concat (map (dataset_stages "results") datasets)).
Proof.
  unfold main, os_chdir, os_getenv, attempt, id.
  unfold mbind, M_bind, bind at 1.
  destruct (fault env (w_trace w) OsChdir) as [e|].
  { eexists _, _, _. split; [reflexivity|]. split; [trace_ext|].
    simpl. split; [apply prefix_nil|done]. }
  unfold bind at 1, ret.
  destruct (falsy (getenv env "AIPROXY_TOKEN")).
  { unfold bind, print, exit_.
    eexists _, _, _. split; [reflexivity|]. split; [trace_ext|].
    simpl. split; [apply prefix_nil|done]. }
  set (w1 := record (ECall OsChdir None) w).
  assert (Hloop : ∀ w2 r, w_trace w2 = w_trace w1 ++ [ECall (OsMakedirs "results") r] →
    ∃ o w' evs, for_each datasets (process_dataset env "results") w2 = (o, w') ∧
      w_trace w' = w_trace w ++ evs ∧
      stages evs `prefix_of`
        SMkdir "results" :: concat (map (dataset_stages "results") datasets) ∧
      (o = Ret tt →
       stages evs
       = SMkdir "results" :: concat (map (dataset_stages "results") datasets))).
  { intros w2 r Htr2.
    destruct (for_each_stages env "results" datasets w2)
      as (o & w' & evs & Hrun & Htr & Hpre & Hall).
    exists o, w', ([ECall OsChdir None; ECall (OsMakedirs "results") r] ++ evs).
    split; [done|]. split.
    { rewrite Htr, Htr2. unfold w1. rewrite trace_record.
      by rewrite <- !app_assoc. }
    rewrite stages_app. split.
    - by apply (prefix_app [SMkdir "results"]).
    - intros Ho. by rewrite Hall. }
  unfold bind at 1, os_makedirs, attempt.
  destruct (decide ("results" ∈ w_dirs w1)); cbv beta iota.
  - eapply Hloop. by rewrite trace_record.
  - fold w1. destruct (fault env (w_trace w1) (OsMakedirs "results")) as [e|];
      cbv beta iota.
    + eexists _, _, _. split; [reflexivity|]. split; [unfold w1; trace_ext|].
      simpl. split; [|done]. by eexists.
    + eapply Hloop. by rewrite trace_add_dir, trace_record.
Qed.

(** X3.  Whatever a run of [main] writes is one of the three artifacts of
    one of its three dataset directories; it never writes to an input
    file. *)
Theorem main_writes_only_artifacts w :
  ∃ o w' evs, main env w = (o, w') ∧
    w_trace w' = w_trace w ++ evs ∧
    ∀ ev p, ev ∈ evs → written ev = Some p →
      p ∈ all_artifacts "results" datasets ∧ p ∉ map snd datasets.
Proof.
  assert (Hnone : ∀ p, p ∈ all_artifacts "results" datasets → p ∉ map snd datasets).
  { intros p Hp Hq. vm_compute in Hp, Hq.
    repeat (apply elem_of_cons in Hp as [->|Hp]; [no_elem Hq|]).
    by apply elem_of_nil in Hp. }
  assert (Hwr : ∃ o w' evs, main env w = (o, w') ∧
    w_trace w' = w_trace w ++ evs ∧
    writes_within (all_artifacts "results" datasets) evs).
  { unfold main, os_chdir, os_getenv, attempt, id.
    unfold mbind, M_bind, bind at 1.
    destruct (fault env (w_trace w) OsChdir) as [e|].
    { eexists _, _, _. split; [reflexivity|]. split; [trace_ext|].
      solve_writes. }
    unfold bind at 1, ret.
    destruct (falsy (getenv env "AIPROXY_TOKEN")).
    { unfold bind, print, exit_.
      eexists _, _, _. split; [reflexivity|]. split; [trace_ext|].
      solve_writes. }
    set (w1 := record (ECall OsChdir None) w).
    assert (Hloop : ∀ w2 r,
      w_trace w2 = w_trace w1 ++ [ECall (OsMakedirs "results") r] →
      ∃ o w' evs, for_each datasets (process_dataset env "results") w2 = (o, w') ∧
        w_trace w' = w_trace w ++ evs ∧
        writes_within (all_artifacts "results" datasets) evs).
    { intros w2 r Htr2.
      destruct (for_each_writes "results" datasets w2)
        as (o & w' & evs & Hrun & Htr & Hin).
      exists o, w', ([ECall OsChdir None; ECall (OsMakedirs "results") r] ++ evs).
      split; [done|]. split.
      { rewrite Htr, Htr2. unfold w1. rewrite trace_record.
        by rewrite <- !app_assoc. }
      apply writes_within_app; [|done]. destruct r; solve_writes. }
    unfold bind at 1, os_makedirs, attempt.
    destruct (decide ("results" ∈ w_dirs w1)); cbv beta iota.
    - eapply Hloop. by rewrite trace_record.
    - fold w1. destruct (fault env (w_trace w1) (OsMakedirs "results")) as [e|];
        cbv beta iota.
      + eexists _, _, _. split; [reflexivity|]. split; [unfold w1; trace_ext|].
        solve_writes.
      + eapply Hloop. by rewrite trace_add_dir, trace_record. }
  destruct Hwr as (o & w' & evs & Hrun & Htr & Hwr).
  exists o, w', evs. split; [done|]. split; [done|].
  intros ev p Hev Hp.
  assert (p ∈ all_artifacts "results" datasets); [|by auto].
  unfold writes_within in Hwr. rewrite Forall_forall in Hwr. by eapply Hwr.
Qed.
End main_facts.


(** ** The stages one by one *)

Section stage_facts.
Context (env : Env).

(** No stage removes or adds a directory. *)
Lemma stages_keep_dirs :
  (∀ file w, w_dirs (load_data env file w).2 = w_dirs w) ∧
  (∀ data w, w_dirs (analyze_data env data w).2 = w_dirs w) ∧
  (∀ data dir w, w_dirs (visualize_data env data dir w).2 = w_dirs w) ∧
  (∀ data dir w, w_dirs (generate_markdown_report env data dir w).2 = w_dirs w).
Proof.
  split_and!; intros.
  - unfold load_data. exec. all: done.
  - unfold analyze_data. exec. all: done.
  - unfold visualize_data. exec. all: done.
  - unfold generate_markdown_report. exec. all: done.
Qed.


(** X6.  When the UTF-8 attempt raises anything but a decoding error,
    [load_data] makes no second attempt: it prints the line of the matching
    [except] clause (file not found, file is empty, or the generic line with
    the error's text) and exits. *)
Theorem load_data_error_line file w e :
  read_csv env file utf_8 = inl e →
  exc_class e ≠ UnicodeDecodeError →
  ∃ w', load_data env file w = (Exit, w') ∧
    w_trace w' = w_trace w ++
      [ ECall (PdReadCsv file utf_8) (Some e); EPrint (load_error_line e) ].
Proof.
  intros Hread Hclass. unfold load_data, load_error_line. exec.
  all: try done.
  all: eexists; split; [reflexivity|].
  all: by rewrite !trace_record, <- !app_assoc.
Qed.

(** X7.  When the UTF-8 attempt raises a decoding error and the
    ISO-8859-1 attempt raises too, whatever its class, [load_data] prints the
    generic line with the second error's text and exits: the clauses for a
    missing or an empty file do not apply to the retry. *)
Theorem load_data_retry_failure_line file w e e' :
  read_csv env file utf_8 = inl e →
  exc_class e = UnicodeDecodeError →
  read_csv env file iso_8859_1 = inl e' →
  ∃ w', load_data env file w = (Exit, w') ∧
    w_trace w' = w_trace w ++
      [ ECall (PdReadCsv file utf_8) (Some e);
        EPrint "Error: File encoding not supported. Trying 'ISO-8859-1'.";
        ECall (PdReadCsv file iso_8859_1) (Some e');
        EPrint ("Error loading file: " +:+ exc_msg e') ].
Proof.
  intros Hread Hclass Hretry. unfold load_data. unfold_prims. simpl.
  rewrite Hread. simpl. rewrite Hclass. simpl. rewrite Hretry. simpl.
  eexists; split; [reflexivity|].
  by rewrite !trace_record, <- !app_assoc.
Qed.

(** X8.  [analyze_data] touches nothing but the console.  What it prints
    is an initial part of: the overview header, the text of [data.info()],
    the line None (the value [data.info()] returns, printed), the statistics
    header, the statistics, the missing-values header, the null counts; and
    all of it when the call returns. *)
Theorem analyze_data_prints data w :
  ∃ o w' evs, analyze_data env data w = (o, w') ∧
    w_trace w' = w_trace w ++ evs ∧
    w_dirs w' = w_dirs w ∧ w_files w' = w_files w ∧ w_figs w' = w_figs w ∧
    prints evs `prefix_of` analysis_lines env data ∧
    (o = Ret tt → prints evs = analysis_lines env data).
Proof.
  unfold analyze_data. exec.
  all: eexists _, _, _; split; [reflexivity|]; split; [trace_ext|].
  all: simpl; repeat split; try done.
  all: by eexists.
Qed.

(** X9.  On a frame without rows, whatever its columns, [visualize_data]
    returns normally, attempts no [plt.savefig] and leaves the files as they
    were. *)
Theorem no_rows_no_images data dir w :
  df_nrows data = 0 →
  ∃ w' evs, visualize_data env data dir w = (Ret tt, w') ∧
    w_trace w' = w_trace w ++ evs ∧
    w_files w' = w_files w ∧
    ∀ p r, ECall (PltSavefig p) r ∉ evs.
Proof.
  intros Hrows.
  assert (df_empty (select_dtypes data [float64; int64]) = true) as Hempty.
  { unfold df_empty, select_dtypes. simpl. by rewrite Hrows. }
  unfold visualize_data. exec.
  all: eexists _, _; split; [reflexivity|]; split; [trace_ext|].
  all: split; [done|].
  all: simpl; intros p r Hin; no_elem Hin.
Qed.

(** X10.  In every environment [visualize_data] can change only its two
    image files: every other file, and every directory, is as before. *)
Theorem visualize_data_touches_only_images data dir w :
  ∃ w', visualize_data env data dir w = (Ret tt, w') ∧
    w_dirs w' = w_dirs w ∧
    ∀ p, p ≠ os_path_join dir "correlation_heatmap.png" →
         p ≠ os_path_join dir "pairplot.png" →
         w_files w' !! p = w_files w !! p.
Proof.
  unfold visualize_data. exec.
  all: eexists; split; [reflexivity|]; split; [done|].
  all: simpl; intros p Hhm Hpp; by rewrite ?lookup_insert_ne by done.
Qed.

(** X11.  An image that [plt.savefig] has saved stays: when the heatmap's
    save returned, the heatmap file holds the heatmap of the selected frame's
    correlation matrix after the call, whatever failed afterwards; and
    likewise the pair plot. *)
Theorem saved_images_stay data dir w :
  let numeric_data := select_dtypes data [float64; int64] in
  ∃ w' evs, visualize_data env data dir w = (Ret tt, w') ∧
    w_trace w' = w_trace w ++ evs ∧
    (ECall (PltSavefig (os_path_join dir "correlation_heatmap.png")) None ∈ evs →
     w_files w' !! os_path_join dir "correlation_heatmap.png"
       = Some (Image [Heatmap (corr env numeric_data)])) ∧
    (ECall (PltSavefig (os_path_join dir "pairplot.png")) None ∈ evs →
     w_files w' !! os_path_join dir "pairplot.png"
       = Some (Image [PairGrid numeric_data])).
Proof.
  intros numeric_data. subst numeric_data.
  assert (os_path_join dir "pairplot.png"
          ≠ os_path_join dir "correlation_heatmap.png") as Hne.
  { intros Heq%os_path_join_inj; done. }
  unfold visualize_data. exec.
  all: eexists _, _; split; [reflexivity|]; split; [trace_ext|].
  all: simpl; split; intros Hin.
  all: first
    [ solve [ rewrite ?lookup_insert_ne by done; by rewrite lookup_insert_eq ]
    | exfalso;
      repeat (apply elem_of_cons in Hin; destruct Hin as [Hin|Hin];
              [ first [ discriminate Hin
                      | injection Hin as Hin;
                        apply os_path_join_inj in Hin; [discriminate Hin|done..] ]
              | ]);
      by apply elem_of_nil in Hin ].
Qed.






(** X14.  In every environment [generate_markdown_report] can change only
    the report file: every other file, every directory and the open figures
    are as before. *)
Theorem report_touches_only_readme data dir w :
  ∃ w', generate_markdown_report env data dir w = (Ret tt, w') ∧
    w_dirs w' = w_dirs w ∧ w_figs w' = w_figs w ∧
    ∀ p, p ≠ os_path_join dir "README.md" → w_files w' !! p = w_files w !! p.
Proof.
  unfold generate_markdown_report. exec.
  all: eexists; split; [reflexivity|]; split; [done|]; split; [done|].
  all: intros p Hp;
       repeat first [ rewrite files_record
                    | rewrite lookup_append_text_ne by done
                    | rewrite lookup_set_file_ne by done ];
       done.
Qed.

(** After a pass of the loop that returns, the dataset's directory exists
    and no directory that existed before is gone. *)
Lemma returning_pass_directory out name file w w' :
  process_dataset env out (name, file) w = (Ret tt, w') →
  os_path_join out name ∈ w_dirs w' ∧ w_dirs w ⊆ w_dirs w'.
Proof.
  destruct stages_keep_dirs as (Hload & Han & Hvis & Hrep).
  unfold process_dataset, mbind, M_bind, bind at 1, print.
  set (w1 := record _ w). unfold bind at 1.
  specialize (Hload file w1). destruct (load_data env file w1) as [[data|e|] w2];
    [|done..].
  unfold bind at 1. simpl in Hload.
  assert (Hmk : ∀ w3, os_makedirs env (os_path_join out name) true w2 = (Ret tt, w3) →
            os_path_join out name ∈ w_dirs w3 ∧ w_dirs w ⊆ w_dirs w3).
  { unfold os_makedirs, attempt. intros w3.
    destruct (decide (os_path_join out name ∈ w_dirs w2)) as [Hin|Hnot].
    - intros [= <-]. rewrite !dirs_record, Hload. by rewrite Hload in Hin.
    - destruct (fault env (w_trace w2) _); [done|]. intros [= <-].
      rewrite dirs_add_dir, !dirs_record, Hload.
      split; [apply elem_of_union_l; by apply elem_of_singleton|].
      apply union_subseteq_r. }
  destruct (os_makedirs env (os_path_join out name) true w2) as [[[]|e|] w3];
    [|done..].
  specialize (Hmk w3 eq_refl).
  unfold bind at 1. specialize (Han data w3).
  destruct (analyze_data env data w3) as [[[]|e|] w4]; [|done..].
  unfold bind at 1. specialize (Hvis data (os_path_join out name) w4).
  destruct (visualize_data env data (os_path_join out name) w4)
    as [[[]|e|] w5]; [|done..].
  specialize (Hrep data (os_path_join out name) w5).
  destruct (generate_markdown_report env data (os_path_join out name) w5)
    as [o w6].
  simpl in *. intros [= -> <-].
  rewrite Hrep, Hvis, Han. done.
Qed.

(** X15.  After a run of the loop that returns, the directory of every
    dataset of the mapping exists, and no directory that existed before the
    run is gone. *)
Theorem returning_loop_creates_directories out ds w w' :
  for_each ds (process_dataset env out) w = (Ret tt, w') →
  w_dirs w ⊆ w_dirs w' ∧
  ∀ item, item ∈ ds → os_path_join out item.1 ∈ w_dirs w'.
Proof.
  revert w. induction ds as [|[name file] ds IH]; intros w.
  - intros [= <-]. split; [done|]. intros item Hin. by apply elem_of_nil in Hin.
  - rewrite for_each_cons. unfold bind at 1.
    destruct (process_dataset env out (name, file) w) as [[[]|e|] w1] eqn:Hpass;
      [|done..].
    apply returning_pass_directory in Hpass as [Hdir Hsub].
    intros [Hsub' Hall]%IH. split; [by etrans|].
    intros item [->|Hin]%elem_of_cons; [by apply Hsub'|by apply Hall].
Qed.
End stage_facts.

(** *** Instances of the further properties *)

(** With the variable unset and [os.chdir] returning, [main] exits after
    two events. *)
Lemma main_requires_token_witness :
  ∃ o w' evs, main (without_token sample) w0 = (o, w') ∧
    w_trace w' = w_trace w0 ++ evs ∧
    o ≠ Ret tt ∧
    stages evs = [] ∧
    w_dirs w' = w_dirs w0 ∧ w_files w' = w_files w0 ∧
    (fault (without_token sample) (w_trace w0) OsChdir = None →
     o = Exit ∧
     evs = [ ECall OsChdir None;
             EPrint "Error: AIPROXY_TOKEN environment variable not set." ]).
Proof.
  apply (main_requires_token (without_token sample) w0). reflexivity.
Defined.


(** A missing file: one read, the line for a missing file, exit. *)
Lemma load_data_error_line_witness :
  ∃ w', load_data (unreadable sample missing) "C:/Users/Rohit/media.csv" w0
        = (Exit, w') ∧
    w_trace w' = w_trace w0 ++
      [ ECall (PdReadCsv "C:/Users/Rohit/media.csv" utf_8)
          (Some (mkExc FileNotFoundError "No such file or directory"));
        EPrint (load_error_line
                  (mkExc FileNotFoundError "No such file or directory")) ].
Proof.
  apply (load_data_error_line (unreadable sample missing)
           "C:/Users/Rohit/media.csv" w0
           (mkExc FileNotFoundError "No such file or directory")).
  - reflexivity.
  - intros Heq. discriminate Heq.
Defined.

Lemma load_data_retry_failure_line_witness :
  ∃ w', load_data (unreadable sample both_fail) "C:/Users/Rohit/media.csv" w0
        = (Exit, w') ∧
    w_trace w' = w_trace w0 ++
      [ ECall (PdReadCsv "C:/Users/Rohit/media.csv" utf_8) (Some decode_error);
        EPrint "Error: File encoding not supported. Trying 'ISO-8859-1'.";
        ECall (PdReadCsv "C:/Users/Rohit/media.csv" iso_8859_1)
          (Some (mkExc OtherException "Error tokenizing data"));
        EPrint ("Error loading file: "
                +:+ exc_msg (mkExc OtherException "Error tokenizing data")) ].
Proof.
  apply (load_data_retry_failure_line (unreadable sample both_fail)
           "C:/Users/Rohit/media.csv" w0 decode_error
           (mkExc OtherException "Error tokenizing data")); reflexivity.
Defined.

(** A float column without rows gets no image. *)
Lemma no_rows_no_images_witness :
  ∃ w' evs, visualize_data (quiet no_rows) no_rows "results/media" w0 = (Ret tt, w') ∧
    w_trace w' = w_trace w0 ++ evs ∧
    w_files w' = w_files w0 ∧
    ∀ p r, ECall (PltSavefig p) r ∉ evs.
Proof.
  apply (no_rows_no_images (quiet no_rows) no_rows "results/media" w0).
  reflexivity.
Defined.

(** After the loop of [main] has returned, its three directories exist. *)
Lemma returning_loop_creates_directories_witness :
  w_dirs w0 ⊆ w_dirs (for_each datasets (process_dataset (quiet sample) "results") w0).2 ∧
  ∀ item, item ∈ datasets →
    os_path_join "results" item.1
    ∈ w_dirs (for_each datasets (process_dataset (quiet sample) "results") w0).2.
Proof.
  apply (returning_loop_creates_directories (quiet sample) "results" datasets w0).
  vm_compute. reflexivity.
Defined.
